(** * Verification of the in-memory CRUD data layer (src/unnamed/part_000)

    Records are JavaScript objects: an ordered association list from
    property names to scalar values.  Numbers are modelled as integers
    (all identifiers of the application are small integers), with [VNaN]
    for the NaN that [Number] produces on a non-numeric input. *)

From Stdlib Require Import List ZArith String Bool Ascii Lia.
Import ListNotations.
Open Scope string_scope.
Open Scope Z_scope.
Open Scope list_scope.

(** ** JavaScript values and strict equality *)

Inductive value : Type :=
| VNum (z : Z)
| VNaN
| VStr (s : string)
| VBool (b : bool)
| VUndef.

(** [a === b]: no coercion between types; [NaN !== NaN]. *)
Definition strict_eq (a b : value) : bool :=
  match a, b with
  | VNum x, VNum y => Z.eqb x y
  | VStr s, VStr t => String.eqb s t
  | VBool x, VBool y => Bool.eqb x y
  | VUndef, VUndef => true
  | _, _ => false
  end.

Definition value_eq_dec (a b : value) : {a = b} + {a <> b}.
Proof. decide equality; auto using Z.eq_dec, string_dec, bool_dec. Defined.

(** ** Objects *)

Definition obj := list (string * value).

Fixpoint lookup (o : obj) (k : string) : option value :=
  match o with
  | [] => None
  | (k', v) :: o' => if String.eqb k k' then Some v else lookup o' k
  end.

(** [o[k]]: a missing property reads as [undefined]. *)
Definition get (o : obj) (k : string) : value :=
  match lookup o k with Some v => v | None => VUndef end.

(** [o[k] = v]: overwrite an own property in place, or add it at the end. *)
Fixpoint set (o : obj) (k : string) (v : value) : obj :=
  match o with
  | [] => [(k, v)]
  | (k', v') :: o' =>
      if String.eqb k k' then (k', v) :: o' else (k', v') :: set o' k v
  end.

(** [{ ...acc, ...src }]: copy the properties of [src] one by one. *)
Definition spread (acc src : obj) : obj :=
  fold_left (fun o kv => set o (fst kv) (snd kv)) src acc.

(** A JavaScript object has no two own properties with the same name. *)
Definition wf_obj (o : obj) : Prop := NoDup (map fst o).

(** ** [Number(x)] and [Math.max]

    A JavaScript number is [Some z], NaN is [None].  [Number] of a string
    is modelled for strings of decimal digits (the empty string gives 0);
    the other forms JavaScript accepts (sign, surrounding blanks, exponent,
    [0x] prefix) are not modelled and give NaN here.  The properties below
    only apply [Number] to keys that are numbers. *)

Definition jsnum := option Z.

Fixpoint parse_digits (l : list ascii) (acc : Z) : jsnum :=
  match l with
  | [] => Some acc
  | c :: l' =>
      let n := Z.of_nat (nat_of_ascii c) - 48 in
      if (0 <=? n) && (n <=? 9) then parse_digits l' (acc * 10 + n) else None
  end.

Definition Number (v : value) : jsnum :=
  match v with
  | VNum z => Some z
  | VNaN => None
  | VStr s => parse_digits (list_ascii_of_string s) 0
  | VBool b => Some (if b then 1 else 0)
  | VUndef => None
  end.

Definition js_max (a b : jsnum) : jsnum :=
  match a, b with
  | Some x, Some y => Some (Z.max x y)
  | _, _ => None
  end.

(** [Math.max(x, ...xs)] on a non-empty argument list. *)
Definition math_max (x : jsnum) (xs : list jsnum) : jsnum :=
  fold_left js_max xs x.

Definition js_plus1 (n : jsnum) : value :=
  match n with Some z => VNum (z + 1) | None => VNaN end.

(** ** Array helpers *)

(** [items.findIndex(p)], with [None] for [-1]. *)
Fixpoint findIndex {A} (p : A -> bool) (l : list A) : option nat :=
  match l with
  | [] => None
  | x :: l' => if p x then Some O else option_map S (findIndex p l')
  end.

(** [items[i] = x] for an index inside the array. *)
Fixpoint list_set {A} (l : list A) (i : nat) (x : A) : list A :=
  match l, i with
  | [], _ => []
  | _ :: l', O => x :: l'
  | y :: l', S i' => y :: list_set l' i' x
  end.

(** ** The service produced by [generateCrudService(items, primaryKey)]

    Each operation takes the current contents of [items] and returns its
    result with the new contents.  The artificial [delay] before each
    operation has no effect on the values. *)

Section CrudService.

Variable primaryKey : string.

Definition matches_id (id : value) (item : obj) : bool :=
  strict_eq (get item primaryKey) id.

Definition getAll (items : list obj) : list obj * list obj :=
  (items, items).

Definition getById (items : list obj) (id : value) : option obj :=
  find (matches_id id) items.

Definition maxId (items : list obj) : jsnum :=
  match items with
  | [] => Some 0
  | i :: rest =>
      math_max (Number (get i primaryKey))
               (map (fun i => Number (get i primaryKey)) rest)
  end.

Definition create (items : list obj) (item : obj) : obj * list obj :=
  let newId := js_plus1 (maxId items) in
  let newItem := set (spread [] item) primaryKey newId in
  (newItem, items ++ [newItem]).

Definition update (items : list obj) (id : value) (updates : obj)
  : option obj * list obj :=
  match findIndex (matches_id id) items with
  | None => (None, items)
  | Some index =>
      let merged := spread (spread [] (nth index items [])) updates in
      (Some merged, list_set items index merged)
  end.

Definition delete (items : list obj) (id : value) : bool * list obj :=
  let initialLength := List.length items in
  let filtered := filter (fun item => negb (matches_id id item)) items in
  if Nat.eqb (List.length filtered) initialLength then (false, items)
  else (true, filtered).

End CrudService.

(** ** The module-level arrays and the relationship queries *)

Record Store : Type := mkStore {
  businesses : list obj;
  products : list obj;
  customers : list obj;
  offers : list obj;
  transactions : list obj;
  redemptions : list obj;
  loyalties : list obj;
  tierSystems : list obj;
  customerTiers : list obj;
  referralPrograms : list obj;
  feedbacks : list obj;
  promotions : list obj;
  fraudDetections : list obj;
  analytics : list obj
}.

Definition fk_is (field : string) (parentId : Z) (r : obj) : bool :=
  strict_eq (get r field) (VNum parentId).

Definition getBusinessOffers (st : Store) (businessId : Z) : list obj :=
  filter (fk_is "B_ID" businessId) st.(offers).

Definition getBusinessFeedback (st : Store) (businessId : Z) : list obj :=
  filter (fk_is "B_ID" businessId) st.(feedbacks).

Definition getBusinessAnalytics (st : Store) (businessId : Z) : list obj :=
  filter (fk_is "B_ID" businessId) st.(analytics).

Definition getCustomerTransactions (st : Store) (customerId : Z) : list obj :=
  filter (fk_is "C_ID" customerId) st.(transactions).

Definition getCustomerTier (st : Store) (customerId : Z) : option obj :=
  find (fk_is "C_ID" customerId) st.(customerTiers).

Definition getCustomerReferrals (st : Store) (customerId : Z) : list obj :=
  filter (fk_is "Referred_C_id" customerId) st.(referralPrograms).

Definition getCustomerFeedback (st : Store) (customerId : Z) : list obj :=
  filter (fk_is "C_ID" customerId) st.(feedbacks).

Definition getCustomerFraudDetections (st : Store) (customerId : Z) : list obj :=
  filter (fk_is "C_ID" customerId) st.(fraudDetections).

Definition getTransactionRedemptions (st : Store) (transactionId : Z) : list obj :=
  filter (fk_is "T_ID" transactionId) st.(redemptions).

(** Record with a numeric primary key. *)
Definition numeric_key (pk : string) (r : obj) : Prop :=
  exists z, get r pk = VNum z.

Definition keys (pk : string) (items : list obj) : list value :=
  map (fun r => get r pk) items.

(** Small sample sequence: [[{id:1},{id:2},{id:3}]]. *)
Definition sample : list obj := [[("id", VNum 1)]; [("id", VNum 2)]; [("id", VNum 3)]].

Example create_sample :
  create "id" sample [] = ([("id", VNum 4)], sample ++ [[("id", VNum 4)]]).
Proof. reflexivity. Qed.

Example delete_sample :
  delete "id" (sample ++ [[("id", VNum 4)]]) (VNum 2)
  = (true, [[("id", VNum 1)]; [("id", VNum 3)]; [("id", VNum 4)]]).
Proof. reflexivity. Qed.

Example number_str : Number (VStr "42") = Some 42.
Proof. reflexivity. Qed.

(** ** The generic table component [DataTable] (src/unnamed/part_008) *)

(** [String(n)] for an integer: its decimal digits, with a leading minus
    (JavaScript switches to exponent notation from [1e21] on). *)
Fixpoint digits_aux (fuel n : nat) (acc : string) : string :=
  match fuel with
  | O => acc
  | S f =>
      let acc' := String (ascii_of_nat (48 + n mod 10)) acc in
      if Nat.ltb n 10 then acc' else digits_aux f (n / 10) acc'
  end.

Definition nat_to_string (n : nat) : string := digits_aux (S n) n "".

(** [String(value)]. *)
Definition js_String (v : value) : string :=
  match v with
  | VNum z =>
      if z <? 0 then "-" ++ nat_to_string (Z.to_nat (- z))
      else nat_to_string (Z.to_nat z)
  | VNaN => "NaN"
  | VStr s => s
  | VBool b => if b then "true" else "false"
  | VUndef => "undefined"
  end.

(** [toLowerCase] on ASCII letters; letters outside ASCII (such as [É]),
    which JavaScript also lower-cases, are left as they are. *)
Definition lower_ascii (c : ascii) : ascii :=
  let n := nat_of_ascii c in
  if Nat.leb 65 n && Nat.leb n 90 then ascii_of_nat (n + 32) else c.

Fixpoint toLowerCase (s : string) : string :=
  match s with
  | EmptyString => EmptyString
  | String c s' => String (lower_ascii c) (toLowerCase s')
  end.

Fixpoint starts_with (p s : string) : bool :=
  match p, s with
  | EmptyString, _ => true
  | String _ _, EmptyString => false
  | String a p', String b s' => Ascii.eqb a b && starts_with p' s'
  end.

(** [haystack.includes(needle)]. *)
Fixpoint includes (haystack needle : string) : bool :=
  starts_with needle haystack ||
  match haystack with
  | EmptyString => false
  | String _ h' => includes h' needle
  end.

(** The search predicate: some value of [Object.values(item)] that is not
    [undefined] renders to a string containing the term, ignoring case. *)
Definition item_matches (searchTerm : string) (item : obj) : bool :=
  existsb (fun v => match v with
                    | VUndef => false
                    | _ => includes (toLowerCase (js_String v)) (toLowerCase searchTerm)
                    end)
          (map snd item).

(** [filteredData]: the empty search term is falsy and keeps all rows. *)
Definition filteredData (data : list obj) (searchTerm : string) : list obj :=
  match searchTerm with
  | EmptyString => data
  | _ => filter (item_matches searchTerm) data
  end.

Definition itemsPerPage : Z := 10.

(** [Math.ceil(length / itemsPerPage)]. *)
Definition totalPages (length : nat) : Z :=
  let n := Z.of_nat length in
  if n mod itemsPerPage =? 0 then n / itemsPerPage else n / itemsPerPage + 1.

(** [Array.prototype.slice(start, end)]: negative positions count from the
    end, positions are clamped to the array. *)
Definition js_slice {A} (l : list A) (start end_ : Z) : list A :=
  let len := Z.of_nat (List.length l) in
  let rel x := if x <? 0 then Z.max (len + x) 0 else Z.min x len in
  let s := rel start in
  let e := rel end_ in
  firstn (Z.to_nat (e - s)) (skipn (Z.to_nat s) l).

Definition paginatedData (data : list obj) (searchTerm : string) (page : Z) : list obj :=
  let filtered := filteredData data searchTerm in
  let startIndex := (page - 1) * itemsPerPage in
  js_slice filtered startIndex (startIndex + itemsPerPage).

(** [goToPage(newPage)] sets [Math.max(1, Math.min(newPage, totalPages))]. *)
Definition goToPage (pages newPage : Z) : Z := Z.max 1 (Z.min newPage pages).

(** The component's state ([useState]) and the events that change it. *)
Record TableState : Type := mkTableState { searchTerm : string; page : Z }.

Definition initialTable : TableState := mkTableState "" 1.

Inductive TableEvent : Type :=
| SearchInput (value : string)   (* onChange of the search box *)
| PageButton (newPage : Z).      (* a pagination button calls goToPage *)

(** One event, rendered over the current [data]. *)
Definition table_step (data : list obj) (st : TableState) (ev : TableEvent) : TableState :=
  match ev with
  | SearchInput v => mkTableState v 1
  | PageButton p =>
      mkTableState st.(searchTerm)
        (goToPage (totalPages (List.length (filteredData data st.(searchTerm)))) p)
  end.

Definition table_run (st : TableState) (evs : list (list obj * TableEvent)) : TableState :=
  fold_left (fun s de => table_step (fst de) s (snd de)) evs st.

(** ** The authentication context (src/src/contexts/AuthContext.tsx) *)

Definition MOCK_ADMINS : list obj :=
  [[("A_ID", VNum 1); ("username", VStr "admin"); ("password", VStr "admin123");
    ("email", VStr "admin@example.com"); ("role", VStr "superadmin")];
   [("A_ID", VNum 2); ("username", VStr "manager"); ("password", VStr "manager123");
    ("email", VStr "manager@example.com"); ("role", VStr "manager")]].

(** [const { k: _, ...rest } = o]: the own properties of [o] except [k],
    in order. *)
Definition omit (k : string) (o : obj) : obj :=
  filter (fun kv => negb (String.eqb (fst kv) k)) o.

(** The provider's state: [admin] and [isLoading] are React state,
    [storedAdmin] is the ['admin'] entry of [localStorage], which survives a
    page reload.  The entry's JSON text is represented by the object it
    encodes: [JSON.parse(JSON.stringify(o))] gives back [o] for these flat
    objects of strings and numbers. *)
Record AuthState : Type := mkAuth {
  admin : option obj;
  isLoading : bool;
  storedAdmin : option obj
}.

(** Mounting the provider: [admin] starts [null], then the effect restores
    the stored entry and clears [isLoading]. *)
Definition mountAuth (storage : option obj) : AuthState :=
  mkAuth storage false storage.

Definition credentials_match (username password : string) (a : obj) : bool :=
  strict_eq (get a "username") (VStr username) &&
  strict_eq (get a "password") (VStr password).

(** [login(username, password)]: [isLoading] is set, then cleared in the
    [finally] block. *)
Definition login (st : AuthState) (username password : string) : bool * AuthState :=
  match find (credentials_match username password) MOCK_ADMINS with
  | Some foundAdmin =>
      let adminWithoutPassword := omit "password" foundAdmin in
      (true, mkAuth (Some adminWithoutPassword) false (Some adminWithoutPassword))
  | None => (false, mkAuth st.(admin) false st.(storedAdmin))
  end.

Definition logout (st : AuthState) : AuthState :=
  mkAuth None st.(isLoading) None.

Definition isAuthenticated (st : AuthState) : bool :=
  match st.(admin) with Some _ => true | None => false end.

Inductive AuthEvent : Type :=
| Login (username password : string)
| Logout
| Reload.   (* the page is reloaded: the provider mounts again *)

Definition auth_step (st : AuthState) (ev : AuthEvent) : AuthState :=
  match ev with
  | Login u p => snd (login st u p)
  | Logout => logout st
  | Reload => mountAuth st.(storedAdmin)
  end.

Definition auth_run (st : AuthState) (evs : list AuthEvent) : AuthState :=
  fold_left auth_step evs st.

(** ** The customer page's handlers (src/src/pages/CustomerPage.tsx) *)

Record CustomerForm : Type := mkCustomerForm {
  form_name : string;
  form_email : string;
  form_phone : string;
  form_join_date : string
}.

Definition customerData (data : CustomerForm) : obj :=
  [("name", VStr data.(form_name)); ("email", VStr data.(form_email));
   ("phone", VStr data.(form_phone)); ("join_date", VStr data.(form_join_date))].

(** [onSubmit]: update the customer being edited, or create one; then
    [getAll] gives the list shown.  Returns the service's new array and the
    displayed list. *)
Definition customer_onSubmit (customers : list obj) (currentCustomer : option obj)
    (data : CustomerForm) : list obj * list obj :=
  let cd := customerData data in
  let customers' :=
    match currentCustomer with
    | Some c => snd (update "C_ID" customers (get c "C_ID") cd)
    | None => snd (create "C_ID" customers cd)
    end in
  (customers', fst (getAll customers')).

(** [handleDelete(customer)]: [confirmed] is the answer to
    [window.confirm]. *)
Definition customer_handleDelete (customers : list obj) (customer : obj)
    (confirmed : bool) : list obj * list obj :=
  if confirmed then
    let customers' := snd (delete "C_ID" customers (get customer "C_ID")) in
    (customers', fst (getAll customers'))
  else (customers, customers).

(** ** Facts about values and objects *)

Lemma strict_eq_true a b : strict_eq a b = true -> a = b.
Proof.
  destruct a, b; simpl; try discriminate; intro H.
  - apply Z.eqb_eq in H; now subst.
  - apply String.eqb_eq in H; now subst.
  - apply Bool.eqb_prop in H; now subst.
  - reflexivity.
Qed.

Lemma strict_eq_num z w : strict_eq (VNum z) (VNum w) = Z.eqb z w.
Proof. reflexivity. Qed.

Lemma strict_eq_neq a b : a <> b -> strict_eq a b = false.
Proof.
  intro H. destruct (strict_eq a b) eqn:E; [|reflexivity].
  apply strict_eq_true in E. contradiction.
Qed.

Lemma lookup_set o k v k' :
  lookup (set o k v) k' = if String.eqb k' k then Some v else lookup o k'.
Proof.
  induction o as [|[k0 v0] o IH]; simpl.
  - destruct (String.eqb k' k); reflexivity.
  - destruct (String.eqb k k0) eqn:E1; simpl.
    + apply String.eqb_eq in E1; subst k0.
      destruct (String.eqb k' k); reflexivity.
    + rewrite IH. destruct (String.eqb k' k0) eqn:E2; [|reflexivity].
      apply String.eqb_eq in E2; subst k0.
      destruct (String.eqb k' k) eqn:E3; [|reflexivity].
      apply String.eqb_eq in E3; subst.
      rewrite String.eqb_refl in E1. discriminate.
Qed.


Lemma lookup_notin o k : ~ In k (map fst o) -> lookup o k = None.
Proof.
  induction o as [|[k0 v0] o IH]; simpl; intro H; [reflexivity|].
  destruct (String.eqb k k0) eqn:E.
  - apply String.eqb_eq in E; subst. exfalso; apply H; now left.
  - apply IH. intro; apply H; now right.
Qed.

(** Overlay of the properties of a well-formed [src] onto [acc]. *)
Lemma lookup_spread acc src k :
  wf_obj src ->
  lookup (spread acc src) k =
  match lookup src k with Some v => Some v | None => lookup acc k end.
Proof.
  unfold wf_obj, spread.
  revert acc; induction src as [|[k0 v0] src IH]; intros acc Hnd; simpl.
  - reflexivity.
  - inversion Hnd as [|? ? Hnin Hnd']; subst.
    rewrite IH by assumption. simpl in *.
    rewrite lookup_set.
    destruct (String.eqb k k0) eqn:E.
    + apply String.eqb_eq in E; subst k0.
      now rewrite lookup_notin by assumption.
    + destruct (lookup src k); reflexivity.
Qed.

Lemma lookup_spread_nil o k : wf_obj o -> lookup (spread [] o) k = lookup o k.
Proof.
  intro H. rewrite lookup_spread by assumption.
  destruct (lookup o k); reflexivity.
Qed.

(** ** Facts about the array helpers *)

Lemma findIndex_split {A} (p : A -> bool) l i :
  findIndex p l = Some i ->
  exists pre x post,
    l = pre ++ x :: post /\ List.length pre = i /\ p x = true /\
    Forall (fun y => p y = false) pre.
Proof.
  revert i; induction l as [|y l IH]; simpl; intros i H; [discriminate|].
  destruct (p y) eqn:Ey.
  - injection H as <-. exists [], y, l. repeat split; auto.
  - destruct (findIndex p l) as [j|] eqn:Ej; simpl in H; [|discriminate].
    injection H as <-.
    destruct (IH j eq_refl) as (pre & x & post & -> & <- & Hx & Hpre).
    exists (y :: pre), x, post. repeat split; auto.
Qed.

Lemma findIndex_none {A} (p : A -> bool) l :
  findIndex p l = None <-> forall x, In x l -> p x = false.
Proof.
  induction l as [|y l IH]; simpl.
  - split; [intros _ x []|reflexivity].
  - destruct (p y) eqn:Ey; split.
    + discriminate.
    + intro H. rewrite (H y (or_introl eq_refl)) in Ey. discriminate.
    + intros H x [<-|Hx]; [assumption|].
      destruct (findIndex p l); [discriminate|]. now apply IH.
    + intro H. assert (findIndex p l = None) as -> by (apply IH; auto).
      reflexivity.
Qed.

Lemma nth_middle' {A} (pre post : list A) x d :
  nth (List.length pre) (pre ++ x :: post) d = x.
Proof. induction pre; simpl; auto. Qed.

Lemma list_set_middle {A} (pre post : list A) x y :
  list_set (pre ++ x :: post) (List.length pre) y = pre ++ y :: post.
Proof. induction pre; simpl; f_equal; auto. Qed.

Lemma find_app_none {A} (p : A -> bool) pre l :
  Forall (fun y => p y = false) pre -> find p (pre ++ l) = find p l.
Proof. induction 1; simpl; auto. rewrite H; auto. Qed.

Lemma find_none_iff {A} (p : A -> bool) l :
  find p l = None <-> forall x, In x l -> p x = false.
Proof.
  induction l as [|y l IH]; simpl.
  - split; [intros _ x []|reflexivity].
  - destruct (p y) eqn:Ey; split.
    + discriminate.
    + intro H. rewrite (H y (or_introl eq_refl)) in Ey. discriminate.
    + intros H x [<-|Hx]; [assumption|]. now apply IH.
    + intro H. apply IH; auto.
Qed.

Lemma filter_length_split {A} (p : A -> bool) l :
  (List.length (filter p l) + List.length (filter (fun x => negb (p x)) l))%nat
  = List.length l.
Proof. induction l as [|x l IH]; simpl; [reflexivity|]. destruct (p x); simpl; lia. Qed.

Lemma filter_all_true {A} (p : A -> bool) l :
  (forall x, In x l -> p x = true) -> filter p l = l.
Proof.
  induction l as [|x l IH]; simpl; intro H; [reflexivity|].
  rewrite H by auto. f_equal. auto.
Qed.

(** ** The identifier chosen by [create] *)

Section MaxId.

Variable pk : string.

Definition key_le (m : Z) (r : obj) : Prop := exists z, get r pk = VNum z /\ z <= m.

Lemma key_le_mono m m' r : m <= m' -> key_le m r -> key_le m' r.
Proof. intros Hm (z & Hz & Hle). exists z; split; [assumption|lia]. Qed.




End MaxId.

(** ** Properties of the CRUD service *)

Ltac js_obj_facts :=
  repeat first
    [ progress (unfold wf_obj, numeric_key, key_le, keys in *; simpl in * )
    | constructor
    | eexists; reflexivity
    | intros [] ].



Lemma filter_app' {A} (p : A -> bool) l1 l2 :
  filter p (l1 ++ l2) = filter p l1 ++ filter p l2.
Proof. induction l1 as [|x l1 IH]; simpl; [reflexivity|]. destruct (p x); simpl; now rewrite IH. Qed.



Lemma filter_none {A} (p : A -> bool) l :
  (forall x, In x l -> p x = false) -> filter (fun x => negb (p x)) l = l.
Proof. intro H. apply filter_all_true. intros x Hx. now rewrite H. Qed.

Lemma filter_length_zero {A} (p : A -> bool) l :
  List.length (filter p l) = O -> forall x, In x l -> p x = false.
Proof.
  induction l as [|y l IH]; simpl; intros H x Hx; [contradiction|].
  destruct (p y) eqn:Ey; [discriminate|].
  destruct Hx as [<-|Hx]; auto.
Qed.

Lemma update_found pk items id upd :
  (exists r, In r items /\ matches_id pk id r = true) ->
  exists pre old post,
    items = pre ++ old :: post /\ matches_id pk id old = true /\
    Forall (fun x => matches_id pk id x = false) pre /\
    update pk items id upd =
      (Some (spread (spread [] old) upd),
       pre ++ spread (spread [] old) upd :: post).
Proof.
  intros (r & Hr & Hm).
  destruct (findIndex (matches_id pk id) items) as [i|] eqn:Ei.
  - destruct (findIndex_split _ _ _ Ei) as (pre & old & post & Hl & Hlen & Hold & Hpre).
    exists pre, old, post. repeat split; try assumption.
    unfold update. rewrite Ei, Hl, <- Hlen, nth_middle', list_set_middle.
    reflexivity.
  - apply findIndex_none with (x := r) in Ei; [|exact Hr]. congruence.
Qed.

(** C7: when no record's key strictly equals [id], [getById] returns
    absence, [update] returns absence, [delete] returns [false], and none
    of them changes the sequence. *)
Theorem missing_id_not_found (pk : string) (items : list obj) (id : value) (upd : obj)
  (Hnone : forall r, In r items -> matches_id pk id r = false) :
  getById pk items id = None /\
  update pk items id upd = (None, items) /\
  delete pk items id = (false, items).
Proof.
  split; [|split].
  - now apply find_none_iff.
  - unfold update. now rewrite (proj2 (findIndex_none _ _) Hnone).
  - unfold delete. rewrite (filter_none _ _ Hnone), Nat.eqb_refl. reflexivity.
Qed.

Lemma missing_id_not_found_witness :
  (forall r, In r sample -> matches_id "id" (VNum 7) r = false) /\
  getById "id" sample (VNum 7) = None /\
  update "id" sample (VNum 7) [("name", VStr "x")] = (None, sample) /\
  delete "id" sample (VNum 7) = (false, sample).
Proof.
  assert (H : forall r, In r sample -> matches_id "id" (VNum 7) r = false)
    by (simpl; intros r [<-|[<-|[<-|[]]]]; reflexivity).
  split; [exact H|].
  exact (missing_id_not_found "id" sample (VNum 7) [("name", VStr "x")] H).
Defined.

(** C8: [getById(id)] returns the first record, in sequence order, whose
    primary key is strictly equal to [id], and absence when there is none;
    in particular a string argument never finds a record with a numeric
    key. *)
Theorem getById_first_strict (pk : string) (items : list obj) (id : value) :
  (forall r,
     getById pk items id = Some r <->
     exists pre post,
       items = pre ++ r :: post /\ strict_eq (get r pk) id = true /\
       Forall (fun x => strict_eq (get x pk) id = false) pre) /\
  (getById pk items id = None <->
   forall r, In r items -> strict_eq (get r pk) id = false) /\
  (Forall (numeric_key pk) items -> forall s, getById pk items (VStr s) = None).
Proof.
  split; [|split].
  - intro r. unfold getById. split.
    + induction items as [|y items IH]; simpl; [discriminate|].
      destruct (matches_id pk id y) eqn:Ey.
      * intros [= <-]. exists [], items. repeat split; auto.
      * intro Hf. destruct (IH Hf) as (pre & post & -> & Hr & Hpre).
        exists (y :: pre), post. repeat split; auto.
    + intros (pre & post & -> & Hr & Hpre).
      rewrite find_app_none by exact Hpre. simpl.
      unfold matches_id. now rewrite Hr.
  - apply find_none_iff.
  - intros Hnum s. apply find_none_iff. intros r Hr.
    rewrite Forall_forall in Hnum. destruct (Hnum r Hr) as (z & Hz).
    unfold matches_id. now rewrite Hz.
Qed.

(** C5: when some record's key strictly equals [id], [update(id, upd)]
    replaces the first such record by the shallow merge of it and [upd]
    (every property of [upd] overlaid, every other property kept), returns
    that merged record, and leaves every other record and the order
    unchanged. *)
Theorem update_existing (pk : string) (items : list obj) (id : value) (upd : obj)
  (Hex : exists r, In r items /\ matches_id pk id r = true)
  (Hwf : wf_obj upd) (Hwfi : Forall wf_obj items) :
  exists pre old post m,
    items = pre ++ old :: post /\ matches_id pk id old = true /\
    Forall (fun x => matches_id pk id x = false) pre /\
    update pk items id upd = (Some m, pre ++ m :: post) /\
    (forall k, lookup m k =
               match lookup upd k with Some v => Some v | None => lookup old k end).
Proof.
  destruct (update_found pk items id upd Hex) as (pre & old & post & Hl & Hold & Hpre & Hu).
  exists pre, old, post, (spread (spread [] old) upd).
  repeat split; try assumption.
  intro k. rewrite lookup_spread by exact Hwf.
  destruct (lookup upd k); [reflexivity|].
  apply lookup_spread_nil.
  rewrite Forall_forall in Hwfi. apply Hwfi. rewrite Hl. apply in_elt.
Qed.

Lemma update_existing_witness :
  (exists r, In r sample /\ matches_id "id" (VNum 2) r = true) /\
  wf_obj [("name", VStr "x")] /\ Forall wf_obj sample /\
  exists pre old post m,
    sample = pre ++ old :: post /\ matches_id "id" (VNum 2) old = true /\
    Forall (fun x => matches_id "id" (VNum 2) x = false) pre /\
    update "id" sample (VNum 2) [("name", VStr "x")] = (Some m, pre ++ m :: post) /\
    (forall k, lookup m k =
               match lookup [("name", VStr "x")] k with
               | Some v => Some v | None => lookup old k end).
Proof.
  assert (He : exists r, In r sample /\ matches_id "id" (VNum 2) r = true)
    by (exists [("id", VNum 2)]; split; [simpl; tauto|reflexivity]).
  assert (Hw : wf_obj [("name", VStr "x")]) by js_obj_facts.
  assert (Hws : Forall wf_obj sample) by js_obj_facts.
  split; [exact He|]. split; [exact Hw|]. split; [exact Hws|].
  exact (update_existing "id" sample (VNum 2) [("name", VStr "x")] He Hw Hws).
Defined.

(** C10: [update] does not protect the primary key: for any sequence and
    any [id] some record has, when [upd] carries the primary-key property
    with value [v], [update(id, upd)] returns and stores a record whose key
    is [v], in place of the first record with key [id]; when moreover [v]
    differs from [id] and no other record has key [id], a later
    [getById(id)] returns absence. *)
Theorem update_overwrites_key (pk : string) (items : list obj) (id v : value) (upd : obj)
  (Hex : exists r, In r items /\ matches_id pk id r = true)
  (Hwf : wf_obj upd) (Hv : lookup upd pk = Some v) :
  exists pre old post m,
    items = pre ++ old :: post /\ matches_id pk id old = true /\
    Forall (fun x => matches_id pk id x = false) pre /\
    update pk items id upd = (Some m, pre ++ m :: post) /\
    get m pk = v /\
    (v <> id -> List.length (filter (matches_id pk id) items) = 1%nat ->
     getById pk (snd (update pk items id upd)) id = None).
Proof.
  destruct (update_found pk items id upd Hex) as (pre & old & post & Hl & Hold & Hpre & Hu).
  set (m := spread (spread [] old) upd) in *.
  assert (Hm : get m pk = v).
  { unfold get, m. rewrite lookup_spread by exact Hwf. now rewrite Hv. }
  exists pre, old, post, m. repeat split; try assumption.
  intros Hneq Hone. rewrite Hu. simpl.
  unfold getById. rewrite find_app_none by exact Hpre. simpl.
  unfold matches_id at 1. rewrite Hm, (strict_eq_neq _ _ Hneq).
  apply find_none_iff. apply filter_length_zero.
  rewrite Hl, filter_app' in Hone. simpl in Hone. rewrite Hold in Hone.
  assert (Hpre0 : filter (matches_id pk id) pre = []).
  { clear -Hpre. induction Hpre; simpl; [reflexivity|]. now rewrite H. }
  rewrite Hpre0 in Hone. simpl in Hone. lia.
Qed.

Lemma update_overwrites_key_witness :
  (exists r, In r sample /\ matches_id "id" (VNum 2) r = true) /\
  wf_obj [("id", VNum 9)] /\ lookup [("id", VNum 9)] "id" = Some (VNum 9) /\
  exists pre old post m,
    sample = pre ++ old :: post /\ matches_id "id" (VNum 2) old = true /\
    Forall (fun x => matches_id "id" (VNum 2) x = false) pre /\
    update "id" sample (VNum 2) [("id", VNum 9)] = (Some m, pre ++ m :: post) /\
    get m "id" = VNum 9 /\
    (VNum 9 <> VNum 2 ->
     List.length (filter (matches_id "id" (VNum 2)) sample) = 1%nat ->
     getById "id" (snd (update "id" sample (VNum 2) [("id", VNum 9)])) (VNum 2) = None).
Proof.
  assert (He : exists r, In r sample /\ matches_id "id" (VNum 2) r = true)
    by (exists [("id", VNum 2)]; split; [simpl; tauto|reflexivity]).
  assert (Hw : wf_obj [("id", VNum 9)]) by js_obj_facts.
  assert (Hv : lookup [("id", VNum 9)] "id" = Some (VNum 9)) by reflexivity.
  split; [exact He|]. split; [exact Hw|]. split; [exact Hv|].
  exact (update_overwrites_key "id" sample (VNum 2) (VNum 9) [("id", VNum 9)] He Hw Hv).
Defined.

(** The stored key on duplicated keys: [update(1, {id: 5})] on two records
    with key 1 gives the first one key 5. *)
Example update_duplicate_keys :
  update "id" [[("id", VNum 1)]; [("id", VNum 1)]] (VNum 1) [("id", VNum 5)]
  = (Some [("id", VNum 5)], [[("id", VNum 5)]; [("id", VNum 1)]]).
Proof. reflexivity. Qed.

(** ** Distinct primary keys *)



Lemma keys_middle pk pre x post :
  keys pk (pre ++ x :: post) = keys pk pre ++ get x pk :: keys pk post.
Proof. unfold keys. now rewrite map_app. Qed.





(** ** Relationship queries *)

(** The foreign-key field holds exactly the number [parentId]. *)
Definition fk_equals (field : string) (parentId : Z) (r : obj) : bool :=
  if value_eq_dec (get r field) (VNum parentId) then true else false.

Lemma fk_is_equals field parentId r : fk_is field parentId r = fk_equals field parentId r.
Proof.
  unfold fk_is, fk_equals.
  destruct (value_eq_dec (get r field) (VNum parentId)) as [->|Hne].
  - apply Z.eqb_refl.
  - now apply strict_eq_neq.
Qed.

Lemma filter_fk field parentId l :
  filter (fk_is field parentId) l = filter (fk_equals field parentId) l.
Proof. apply filter_ext. apply fk_is_equals. Qed.

Lemma find_hd_filter {A} (p : A -> bool) l : find p l = hd_error (filter p l).
Proof. induction l as [|x l IH]; simpl; [reflexivity|]. destruct (p x); auto. Qed.

(** A store whose only non-empty array holds two tiers of customer 1. *)
Definition two_tiers_store : Store :=
  {| businesses := []; products := []; customers := []; offers := [];
     transactions := []; redemptions := []; loyalties := []; tierSystems := [];
     customerTiers := [[("CT_ID", VNum 1); ("C_ID", VNum 1)];
                       [("CT_ID", VNum 2); ("C_ID", VNum 1)]];
     referralPrograms := []; feedbacks := []; promotions := [];
     fraudDetections := []; analytics := [] |}.

(** C3 (as stated, refuted): [getCustomerTier] does not return every tier
    record of the customer; of the two records with [C_ID = 1] it returns
    only one. *)
Lemma getCustomerTier_not_all :
  ~ (forall r, In r (filter (fk_equals "C_ID" 1) (customerTiers two_tiers_store)) ->
               getCustomerTier two_tiers_store 1 = Some r).
Proof.
  intro H.
  pose proof (H [("CT_ID", VNum 1); ("C_ID", VNum 1)] (or_introl eq_refl)) as H1.
  pose proof (H [("CT_ID", VNum 2); ("C_ID", VNum 1)] (or_intror (or_introl eq_refl))) as H2.
  rewrite H1 in H2. discriminate.
Qed.

(** C3 (amended): every relationship query except [getCustomerTier]
    returns, in sequence order, all records of its array whose foreign-key
    field equals the parent id; [getCustomerTier] returns only the first
    such record of [customerTiers], or absence. *)
Theorem relationship_queries_filter (st : Store) (parentId : Z) :
  getBusinessOffers st parentId = filter (fk_equals "B_ID" parentId) st.(offers) /\
  getBusinessFeedback st parentId = filter (fk_equals "B_ID" parentId) st.(feedbacks) /\
  getBusinessAnalytics st parentId = filter (fk_equals "B_ID" parentId) st.(analytics) /\
  getCustomerTransactions st parentId =
    filter (fk_equals "C_ID" parentId) st.(transactions) /\
  getCustomerReferrals st parentId =
    filter (fk_equals "Referred_C_id" parentId) st.(referralPrograms) /\
  getCustomerFeedback st parentId = filter (fk_equals "C_ID" parentId) st.(feedbacks) /\
  getCustomerFraudDetections st parentId =
    filter (fk_equals "C_ID" parentId) st.(fraudDetections) /\
  getTransactionRedemptions st parentId =
    filter (fk_equals "T_ID" parentId) st.(redemptions) /\
  getCustomerTier st parentId =
    hd_error (filter (fk_equals "C_ID" parentId) st.(customerTiers)).
Proof.
  repeat split; try apply filter_fk.
  unfold getCustomerTier. rewrite find_hd_filter. f_equal. apply filter_fk.
Qed.

(** ** Deletion *)

Lemma matches_key pk id r : matches_id pk id r = true -> get r pk = id.
Proof. apply strict_eq_true. Qed.

Lemma distinct_keys_one_match pk id items :
  NoDup (keys pk items) -> (List.length (filter (matches_id pk id) items) <= 1)%nat.
Proof.
  induction items as [|x items IH]; simpl; intro Hnd; [lia|].
  inversion Hnd as [|? ? Hx Hnd']; subst.
  destruct (matches_id pk id x) eqn:Ex; simpl; [|auto].
  assert (filter (matches_id pk id) items = []) as -> ; [|simpl; lia].
  destruct (filter (matches_id pk id) items) as [|y rest] eqn:Ef; [reflexivity|].
  exfalso. assert (Hy : In y (filter (matches_id pk id) items)) by (rewrite Ef; now left).
  apply filter_In in Hy as [Hy Hmy]. apply Hx.
  rewrite (matches_key _ _ _ Ex), <- (matches_key _ _ _ Hmy).
  unfold keys. apply (in_map (fun r => get r pk)). exact Hy.
Qed.

(** Two records sharing the key 1. *)
Definition duplicate_records : list obj := [[("id", VNum 1)]; [("id", VNum 1)]].

(** C4 (as stated, refuted): [delete(1)] on two records with key 1 removes
    both, shrinking the sequence by two. *)
Lemma delete_removes_every_match :
  List.length duplicate_records = 2%nat /\
  delete "id" duplicate_records (VNum 1) = (true, []).
Proof. split; reflexivity. Qed.

(** C4 (amended): [delete(id)] removes every record whose key strictly
    equals [id], keeps the others in order and returns [true] when there is
    at least one, so the length drops by the number of matches (exactly one
    when the keys are pairwise distinct); when none matches it returns
    [false] and the sequence is unchanged. *)
Theorem delete_spec (pk : string) (items : list obj) (id : value) :
  ((exists r, In r items /\ matches_id pk id r = true) ->
   delete pk items id = (true, filter (fun r => negb (matches_id pk id r)) items) /\
   (List.length (snd (delete pk items id)) +
    List.length (filter (matches_id pk id) items) = List.length items)%nat) /\
  ((forall r, In r items -> matches_id pk id r = false) ->
   delete pk items id = (false, items)) /\
  (NoDup (keys pk items) -> (exists r, In r items /\ matches_id pk id r = true) ->
   fst (delete pk items id) = true /\
   List.length (snd (delete pk items id)) = (List.length items - 1)%nat).
Proof.
  assert (Hfound : (exists r, In r items /\ matches_id pk id r = true) ->
           delete pk items id = (true, filter (fun r => negb (matches_id pk id r)) items)).
  { intros (r & Hr & Hm). unfold delete.
    destruct (Nat.eqb _ _) eqn:E; [|reflexivity].
    apply Nat.eqb_eq in E. pose proof (filter_length_split (matches_id pk id) items) as Hs.
    assert (Hz : List.length (filter (matches_id pk id) items) = O) by lia.
    rewrite (filter_length_zero _ _ Hz r Hr) in Hm. discriminate. }
  split; [|split].
  - intro Hex. rewrite (Hfound Hex). split; [reflexivity|].
    simpl. pose proof (filter_length_split (matches_id pk id) items). lia.
  - intro Hnone. unfold delete. rewrite (filter_none _ _ Hnone), Nat.eqb_refl. reflexivity.
  - intros Hnd Hex. rewrite (Hfound Hex). split; [reflexivity|]. simpl.
    pose proof (filter_length_split (matches_id pk id) items) as Hs.
    pose proof (distinct_keys_one_match pk id items Hnd) as H1.
    destruct Hex as (r & Hr & Hm).
    assert (In r (filter (matches_id pk id) items)) as Hin by (apply filter_In; auto).
    destruct (filter (matches_id pk id) items) as [|y rest]; [contradiction|].
    simpl in *. lia.
Qed.

(** ** Identifier reuse *)

(** C9: identifiers are reused: after deleting the record holding the
    largest key 3 of [[{id:1},{id:2},{id:3}]], the next [create] assigns 3
    again. *)
Theorem deleted_max_id_reused :
  exists items id,
    In id (keys "id" items) /\
    fst (delete "id" items id) = true /\
    ~ In id (keys "id" (snd (delete "id" items id))) /\
    get (fst (create "id" (snd (delete "id" items id)) [])) "id" = id.
Proof.
  exists sample, (VNum 3). vm_compute.
  split; [right; right; left; reflexivity|].
  split; [reflexivity|].
  split; [intros [[=]|[[=]|[]]]|reflexivity].
Qed.

Example js_String_num : js_String (VNum 1200) = "1200".
Proof. reflexivity. Qed.
Example search_sample :
  filteredData [[("name", VStr "Acme Corporation")]; [("name", VStr "Food")]] "CORP"
  = [[("name", VStr "Acme Corporation")]].
Proof. reflexivity. Qed.
Example pages_25 : totalPages 25 = 3 /\ totalPages 30 = 3 /\ totalPages 0 = 0.
Proof. repeat split; reflexivity. Qed.

(** ** Search and pagination of [DataTable] *)

Lemma firstn_add' {A} a b (l : list A) :
  firstn (a + b) l = firstn a l ++ firstn b (skipn a l).
Proof.
  revert l; induction a as [|a IH]; intro l; [reflexivity|].
  destruct l as [|x l]; simpl; [now rewrite firstn_nil|]. now rewrite IH.
Qed.

Lemma firstn_min {A} a (l : list A) : firstn (Nat.min a (List.length l)) l = firstn a l.
Proof.
  destruct (Nat.min_spec a (List.length l)) as [[_ ->]|[Hle ->]]; [reflexivity|].
  rewrite firstn_all, firstn_all2 by exact Hle. reflexivity.
Qed.

Lemma totalPages_bounds n :
  0 <= totalPages n /\ Z.of_nat n <= itemsPerPage * totalPages n /\
  (forall p, 1 <= p <= totalPages n -> itemsPerPage * (p - 1) < Z.of_nat n).
Proof.
  unfold totalPages, itemsPerPage.
  pose proof (Z.div_mod (Z.of_nat n) 10 ltac:(lia)) as Hd.
  pose proof (Z.mod_pos_bound (Z.of_nat n) 10 ltac:(lia)) as Hb.
  destruct (Z.of_nat n mod 10 =? 0) eqn:E.
  - apply Z.eqb_eq in E. rewrite E in Hd. repeat split; intros; lia.
  - apply Z.eqb_neq in E. repeat split; intros; lia.
Qed.

(** Rows [10 k] to [10 k + 9] of a list, as [slice] cuts them. *)
Lemma slice_chunk {A} (l : list A) k :
  js_slice l (Z.of_nat (10 * k)) (Z.of_nat (10 * k) + 10) = firstn 10 (skipn (10 * k) l).
Proof.
  unfold js_slice.
  replace (Z.of_nat (10 * k) <? 0) with false by (symmetry; apply Z.ltb_ge; lia).
  replace (Z.of_nat (10 * k) + 10 <? 0) with false by (symmetry; apply Z.ltb_ge; lia).
  destruct (Nat.le_gt_cases (List.length l) (10 * k)) as [Hge|Hlt].
  - rewrite Z.min_r by lia. rewrite Z.min_r by lia. rewrite Z.sub_diag.
    assert (E : skipn (10 * k) l = []) by (apply skipn_all2; exact Hge).
    rewrite E, firstn_nil. reflexivity.
  - rewrite (Z.min_l (Z.of_nat (10 * k)) (Z.of_nat (List.length l))) by lia. rewrite Nat2Z.id.
    replace (Z.to_nat (Z.min (Z.of_nat (10 * k) + 10) (Z.of_nat (List.length l))
                       - Z.of_nat (10 * k)))
      with (Nat.min 10 (List.length (skipn (10 * k) l)))
      by (rewrite length_skipn; lia).
    apply firstn_min.
Qed.

Lemma paginated_chunk data term k :
  paginatedData data term (Z.of_nat (S k)) =
  firstn 10 (skipn (10 * k) (filteredData data term)).
Proof.
  unfold paginatedData.
  replace ((Z.of_nat (S k) - 1) * itemsPerPage) with (Z.of_nat (10 * k))
    by (unfold itemsPerPage; lia).
  apply slice_chunk.
Qed.

Lemma concat_chunks {A} (l : list A) m :
  List.concat (map (fun k => firstn 10 (skipn (10 * k) l)) (seq 0 m)) = firstn (10 * m) l.
Proof.
  induction m as [|m IH]; [reflexivity|].
  rewrite seq_S, map_app, List.concat_app, IH. cbn [map List.concat].
  rewrite app_nil_r, Nat.add_0_l.
  replace (10 * S m)%nat with (10 * m + 10)%nat by lia.
  now rewrite firstn_add'.
Qed.

(** The pages [1 .. totalPages] of the rows selected by the search, put
    one after the other, give back exactly those rows in order; each of
    these pages shows between 1 and 10 rows. *)
Theorem pages_partition_rows (data : list obj) (term : string) :
  let rows := filteredData data term in
  List.concat (map (fun k => paginatedData data term (Z.of_nat (S k)))
              (seq 0 (Z.to_nat (totalPages (List.length rows))))) = rows /\
  (forall p, 1 <= p <= totalPages (List.length rows) ->
   (1 <= List.length (paginatedData data term p) <= 10)%nat).
Proof.
  intro rows.
  destruct (totalPages_bounds (List.length rows)) as (H0 & Hcover & Hlast).
  split.
  - rewrite (map_ext _ _ (paginated_chunk data term)). fold rows.
    rewrite concat_chunks. apply firstn_all2.
    unfold itemsPerPage in Hcover. lia.
  - intros p Hp. specialize (Hlast p Hp).
    replace p with (Z.of_nat (S (Z.to_nat (p - 1)))) by lia.
    rewrite paginated_chunk. fold rows.
    rewrite length_firstn, length_skipn. unfold itemsPerPage in Hlast. lia.
Qed.

(** A page number beyond the last page (left over after the rows shrank)
    shows no rows. *)
Theorem stale_page_empty (data : list obj) (term : string) (p : Z)
  (Hp : totalPages (List.length (filteredData data term)) < p) :
  paginatedData data term p = [].
Proof.
  destruct (totalPages_bounds (List.length (filteredData data term))) as (H0 & Hcover & _).
  unfold paginatedData, js_slice. unfold itemsPerPage in *.
  set (rows := filteredData data term) in *.
  replace ((p - 1) * 10 <? 0) with false by (symmetry; apply Z.ltb_ge; lia).
  rewrite (Z.min_r ((p - 1) * 10) (Z.of_nat (List.length rows))) by lia.
  rewrite Nat2Z.id, skipn_all. apply firstn_nil.
Qed.

Lemma stale_page_empty_witness :
  totalPages (List.length (filteredData sample "")) < 2 /\
  paginatedData sample "" 2 = [].
Proof.
  assert (H : totalPages (List.length (filteredData sample "")) < 2) by (vm_compute; reflexivity).
  split; [exact H|]. exact (stale_page_empty sample "" 2 H).
Defined.

(** [goToPage] never goes below page 1, never beyond the last page when
    there is one, and goes exactly to a requested page that exists. *)
Theorem goToPage_clamps (pages newPage : Z) :
  1 <= goToPage pages newPage /\
  (1 <= pages -> goToPage pages newPage <= pages) /\
  (1 <= newPage <= pages -> goToPage pages newPage = newPage).
Proof. unfold goToPage. repeat split; intros; lia. Qed.

(** Whatever the search input, page buttons and data changes, the current
    page of a table that starts on page 1 stays at least 1. *)
Theorem table_page_positive (evs : list (list obj * TableEvent)) :
  1 <= (table_run initialTable evs).(page).
Proof.
  unfold table_run.
  assert (Hgen : forall st, 1 <= st.(page) ->
            1 <= (fold_left (fun s de => table_step (fst de) s (snd de)) evs st).(page)).
  { induction evs as [|[d ev] evs IH]; intros st Hst; simpl; [exact Hst|].
    apply IH. destruct ev; simpl; [lia|apply goToPage_clamps]. }
  apply Hgen. simpl. lia.
Qed.

(** ** Authentication *)

Lemma strict_eq_str s t : strict_eq (VStr s) (VStr t) = String.eqb s t.
Proof. reflexivity. Qed.

Lemma mock_admin_credentials u p :
  (exists a, In a MOCK_ADMINS /\ credentials_match u p a = true) <->
  (u = "admin" /\ p = "admin123") \/ (u = "manager" /\ p = "manager123").
Proof.
  split.
  - intros (a & [<-|[<-|[]]] & H); unfold credentials_match in H.
    + change (strict_eq (VStr "admin") (VStr u) &&
              strict_eq (VStr "admin123") (VStr p) = true) in H.
      rewrite !strict_eq_str in H. apply andb_true_iff in H as [H1 H2].
      apply String.eqb_eq in H1, H2. left. split; symmetry; assumption.
    + change (strict_eq (VStr "manager") (VStr u) &&
              strict_eq (VStr "manager123") (VStr p) = true) in H.
      rewrite !strict_eq_str in H. apply andb_true_iff in H as [H1 H2].
      apply String.eqb_eq in H1, H2. right. split; symmetry; assumption.
  - intros [[-> ->]|[-> ->]].
    + eexists. split; [left; reflexivity|reflexivity].
    + eexists. split; [right; left; reflexivity|reflexivity].
Qed.

(** [login] accepts exactly the two mock credential pairs. *)
Theorem login_accepts_exactly (st : AuthState) (u p : string) :
  fst (login st u p) = true <->
  (u = "admin" /\ p = "admin123") \/ (u = "manager" /\ p = "manager123").
Proof.
  rewrite <- mock_admin_credentials. unfold login.
  destruct (find (credentials_match u p) MOCK_ADMINS) as [a|] eqn:Ef; cbn [fst].
  - split; [intros _|reflexivity]. exists a. now apply find_some.
  - split; [discriminate|]. intros (a & Hin & Hm).
    rewrite (proj1 (find_none_iff _ _) Ef a Hin) in Hm. discriminate.
Qed.

(** A successful login keeps the matching mock admin without its password,
    both as the session's admin and in storage, and authenticates the
    session; a failed login changes neither the session's admin nor the
    storage (it does not log out a signed-in admin). *)
Theorem login_session (st : AuthState) (u p : string) :
  (fst (login st u p) = true ->
   exists a, In a MOCK_ADMINS /\ get a "username" = VStr u /\
     get a "password" = VStr p /\
     (snd (login st u p)).(admin) = Some (omit "password" a) /\
     (snd (login st u p)).(storedAdmin) = Some (omit "password" a) /\
     lookup (omit "password" a) "password" = None /\
     isAuthenticated (snd (login st u p)) = true /\
     (snd (login st u p)).(isLoading) = false) /\
  (fst (login st u p) = false ->
   (snd (login st u p)).(admin) = st.(admin) /\
   (snd (login st u p)).(storedAdmin) = st.(storedAdmin) /\
   (snd (login st u p)).(isLoading) = false).
Proof.
  unfold login. split.
  - destruct (find (credentials_match u p) MOCK_ADMINS) as [a|] eqn:Ef;
      [|discriminate].
    intros _. apply find_some in Ef as [Hin Hm].
    unfold credentials_match in Hm. apply andb_true_iff in Hm as [H1 H2].
    apply strict_eq_true in H1, H2.
    exists a. repeat split; auto.
    apply lookup_notin. intro Hk. apply in_map_iff in Hk as ([k v] & Hkv & Hk).
    simpl in Hkv. subst k. apply filter_In in Hk as [_ Hk].
    simpl in Hk. rewrite ?String.eqb_refl in Hk. discriminate.
  - destruct (find (credentials_match u p) MOCK_ADMINS); [discriminate|].
    intros _. repeat split.
Qed.

(** Session invariant: starting from a fresh browser (nothing stored),
    after any sequence of logins, logouts and reloads the session's admin
    equals the stored one, so a reload restores exactly the current
    session, and neither ever holds a password. *)
Definition auth_inv (st : AuthState) : Prop :=
  st.(admin) = st.(storedAdmin) /\
  forall o, st.(storedAdmin) = Some o -> lookup o "password" = None.

Lemma auth_step_inv st ev : auth_inv st -> auth_inv (auth_step st ev).
Proof.
  intros [Heq Hpw]. destruct ev as [u p| |]; cbn [auth_step].
  - destruct (fst (login st u p)) eqn:Ok.
    + destruct (proj1 (login_session st u p) Ok) as (a & _ & _ & _ & Ha & Hs & Hn & _).
      split; [congruence|]. rewrite Hs. intros o [= <-]. exact Hn.
    + destruct (proj2 (login_session st u p) Ok) as (Ha & Hs & _).
      split; [congruence|]. rewrite Hs. exact Hpw.
  - split; [reflexivity|discriminate].
  - split; [reflexivity|exact Hpw].
Qed.

Theorem session_matches_storage (evs : list AuthEvent) :
  let st := auth_run (mountAuth None) evs in
  st.(admin) = st.(storedAdmin) /\
  (auth_step st Reload).(admin) = st.(admin) /\
  (forall o, st.(admin) = Some o -> lookup o "password" = None).
Proof.
  intro st.
  assert (H : auth_inv st).
  { unfold st, auth_run.
    assert (Hgen : forall st0, auth_inv st0 -> auth_inv (fold_left auth_step evs st0)).
    { induction evs as [|ev evs IH]; intros st0 Hi; simpl; [exact Hi|].
      apply IH, auth_step_inv, Hi. }
    apply Hgen. split; [reflexivity|discriminate]. }
  destruct H as [Heq Hpw]. split; [exact Heq|]. split.
  - simpl. symmetry. exact Heq.
  - intros o Ho. apply Hpw. rewrite <- Heq. exact Ho.
Qed.

(** ** The customer page *)

Lemma customerData_wf data : wf_obj (customerData data).
Proof.
  unfold wf_obj, customerData; simpl.
  repeat constructor; simpl; intuition discriminate.
Qed.

Lemma filter_length_full {A} (p : A -> bool) l :
  List.length (filter p l) = List.length l -> forall x, In x l -> p x = true.
Proof.
  intros H x Hx. apply (proj1 (forallb_forall p l)); [|exact Hx].
  now apply filter_length_forallb.
Qed.

Lemma delete_leaves_no_match pk items id :
  forall r, In r (snd (delete pk items id)) -> matches_id pk id r = false.
Proof.
  intros r Hr. unfold delete in Hr.
  destruct (Nat.eqb _ _) eqn:E; simpl in Hr.
  - apply Nat.eqb_eq in E.
    pose proof (filter_length_full _ _ E r Hr) as H. cbv beta in H. destruct (matches_id pk id r); [discriminate|reflexivity].
  - apply filter_In in Hr as [_ H]. now destruct (matches_id pk id r).
Qed.

(** Saving the edit form of a customer never changes any record's
    [C_ID] (the form data has no [C_ID]), so the list keeps its length and
    keys; the edited record, when present, takes the form's values. *)
Theorem customer_edit_keeps_keys (customers : list obj) (c : obj) (data : CustomerForm)
  (Hwf : Forall wf_obj customers) :
  let res := customer_onSubmit customers (Some c) data in
  snd res = fst res /\
  keys "C_ID" (fst res) = keys "C_ID" customers /\
  ((exists r, In r customers /\ matches_id "C_ID" (get c "C_ID") r = true) ->
   exists m, In m (fst res) /\ get m "C_ID" = get c "C_ID" /\
     get m "name" = VStr data.(form_name) /\ get m "email" = VStr data.(form_email) /\
     get m "phone" = VStr data.(form_phone) /\
     get m "join_date" = VStr data.(form_join_date)).
Proof.
  intro res. unfold res, customer_onSubmit. cbn [fst snd getAll].
  set (cd := customerData data).
  assert (Hkey : forall old, wf_obj old ->
            get (spread (spread [] old) cd) "C_ID" = get old "C_ID").
  { intros old Hwo. unfold get at 1.
    rewrite lookup_spread by apply customerData_wf.
    replace (lookup cd "C_ID") with (@None value) by reflexivity.
    rewrite lookup_spread_nil by exact Hwo. reflexivity. }
  assert (Hfield : forall old k, wf_obj old -> k <> "C_ID" -> lookup cd k <> None ->
            get (spread (spread [] old) cd) k = get cd k).
  { intros old k Hwo _ Hk. unfold get.
    rewrite lookup_spread by apply customerData_wf.
    destruct (lookup cd k); [reflexivity|contradiction]. }
  split; [reflexivity|]. split.
  - destruct (findIndex (matches_id "C_ID" (get c "C_ID")) customers) as [i|] eqn:Ei.
    + destruct (findIndex_split _ _ _ Ei) as (pre0 & x & post0 & Hl0 & _ & Hx & _).
      destruct (update_found "C_ID" customers (get c "C_ID") cd)
        as (pre & old & post & Hl & Hold & _ & ->).
      { exists x. split; [rewrite Hl0; apply in_elt|exact Hx]. }
      cbn [snd]. rewrite Hl, !keys_middle, Hkey; [reflexivity|].
      rewrite Forall_forall in Hwf. apply Hwf. rewrite Hl. apply in_elt.
    + unfold update. rewrite Ei. reflexivity.
  - intro Hex.
    destruct (update_found "C_ID" customers (get c "C_ID") cd Hex)
      as (pre & old & post & Hl & Hold & _ & ->).
    assert (Hwo : wf_obj old)
      by (rewrite Forall_forall in Hwf; apply Hwf; rewrite Hl; apply in_elt).
    exists (spread (spread [] old) cd). cbn [snd]. split; [apply in_elt|].
    split; [rewrite Hkey by exact Hwo; now apply strict_eq_true|].
    repeat split; rewrite Hfield by (exact Hwo || discriminate); reflexivity.
Qed.

Lemma customer_edit_keeps_keys_witness :
  Forall wf_obj sample /\
  (let res := customer_onSubmit sample (Some [("id", VNum 2)])
                (mkCustomerForm "Jane" "jane@example.com" "555" "2023-02-20") in
   snd res = fst res /\
   keys "C_ID" (fst res) = keys "C_ID" sample /\
   ((exists r, In r sample /\ matches_id "C_ID" (get [("id", VNum 2)] "C_ID") r = true) ->
    exists m, In m (fst res) /\ get m "C_ID" = get [("id", VNum 2)] "C_ID" /\
      get m "name" = VStr "Jane" /\ get m "email" = VStr "jane@example.com" /\
      get m "phone" = VStr "555" /\ get m "join_date" = VStr "2023-02-20")).
Proof.
  assert (Hws : Forall wf_obj sample) by js_obj_facts.
  split; [exact Hws|].
  exact (customer_edit_keeps_keys sample [("id", VNum 2)]
           (mkCustomerForm "Jane" "jane@example.com" "555" "2023-02-20") Hws).
Defined.



(** A confirmed delete of a customer with a numeric [C_ID] leaves no record
    with that [C_ID] and keeps every record with another [C_ID]; an
    unconfirmed delete changes nothing. *)
Theorem customer_delete_removes_key (customers : list obj) (customer : obj)
  (Hnum : numeric_key "C_ID" customer) :
  let res := customer_handleDelete customers customer true in
  snd res = fst res /\
  ~ In (get customer "C_ID") (keys "C_ID" (fst res)) /\
  (forall r, In r customers -> get r "C_ID" <> get customer "C_ID" -> In r (fst res)) /\
  customer_handleDelete customers customer false = (customers, customers).
Proof.
  intro res. unfold res, customer_handleDelete. cbn [fst snd getAll].
  destruct Hnum as (z & Hz).
  split; [reflexivity|]. split; [|split; [|reflexivity]].
  - intro Hin. apply in_map_iff in Hin as (r & Hr & Hin).
    apply delete_leaves_no_match in Hin. unfold matches_id in Hin.
    rewrite Hr, Hz in Hin. cbn [strict_eq] in Hin. rewrite Z.eqb_refl in Hin. discriminate.
  - intros r Hr Hne. unfold delete.
    assert (Hm : matches_id "C_ID" (get customer "C_ID") r = false)
      by (unfold matches_id; now apply strict_eq_neq).
    destruct (Nat.eqb _ _); [exact Hr|]. apply filter_In. rewrite Hm. auto.
Qed.

Lemma customer_delete_removes_key_witness :
  numeric_key "C_ID" [("C_ID", VNum 1)] /\
  (let res := customer_handleDelete [[("C_ID", VNum 1)]; [("C_ID", VNum 2)]]
                [("C_ID", VNum 1)] true in
   snd res = fst res /\
   ~ In (get [("C_ID", VNum 1)] "C_ID") (keys "C_ID" (fst res)) /\
   (forall r, In r [[("C_ID", VNum 1)]; [("C_ID", VNum 2)]] ->
      get r "C_ID" <> get [("C_ID", VNum 1)] "C_ID" -> In r (fst res)) /\
   customer_handleDelete [[("C_ID", VNum 1)]; [("C_ID", VNum 2)]] [("C_ID", VNum 1)] false
     = ([[("C_ID", VNum 1)]; [("C_ID", VNum 2)]], [[("C_ID", VNum 1)]; [("C_ID", VNum 2)]])).
Proof.
  assert (H : numeric_key "C_ID" [("C_ID", VNum 1)]) by js_obj_facts.
  split; [exact H|].
  exact (customer_delete_removes_key [[("C_ID", VNum 1)]; [("C_ID", VNum 2)]] _ H).
Defined.
